(** * OAIConfig: the configuration resolver of AILearning/oai_config.py

    A shallow embedding of the class [OAIConfig] and of the part of the
    Python runtime it relies on: optional strings and the [or] operator,
    dictionaries, subscripting and the exceptions it raises, attribute
    reads and writes on [self], and the two external collaborators (the
    process environment and the identity library). *)

From stdpp Require Import gmap strings list fin_maps.
From Stdlib Require Import ZArith QArith.

Set Warnings "-register-all".
Local Open Scope string_scope.

(** ** The Python values the class handles *)

Module Py.

(** [InteractiveBrowserCredential()] of azure.identity. *)
Inductive credential : Type :=
  | InteractiveBrowserCredential.

(** The zero-argument callable that
    [get_bearer_token_provider(credential, scope)] returns. *)
Inductive callable : Type :=
  | get_bearer_token_provider (c : credential) (scope : string).

(** Floats are only carried around (the default temperature 0.5), never
    computed with, so a rational stands for them. *)
Inductive value : Type :=
  | VNone
  | VStr (s : string)
  | VInt (n : Z)
  | VFloat (q : Q)
  | VCallable (f : callable)
  | VList (l : list value)
  | VDict (d : gmap string value).

Inductive exn : Type :=
  | KeyError (key : string)
  | IndexError
  | TypeError (msg : string)
  | AttributeError (attr : string)
  | ClientAuthenticationError (msg : string).

Inductive result (A : Type) : Type :=
  | Ok (a : A)
  | Raise (e : exn).
Arguments Ok {A} a.
Arguments Raise {A} e.

(** A dict display [{k1: v1, ..., kn: vn}]: keys are inserted from left to
    right, a repeated key keeps the last value. *)
Definition dict (items : list (string * value)) : gmap string value :=
  foldl (fun d kv => <[kv.1 := kv.2]> d) ∅ items.

(** Truth value of an [Optional[str]]: [None] and [""] are false. *)
Definition truthy (x : option string) : bool :=
  match x with
  | None => false
  | Some s => negb (String.eqb s "")
  end.

(** [x or y] on optional strings. *)
Definition or_ (x y : option string) : option string :=
  if truthy x then x else y.

(** [x or d] where [d] is a string literal. *)
Definition or_str (x : option string) (d : string) : string :=
  match or_ x (Some d) with
  | Some s => s
  | None => d
  end.

Definition of_optional (x : option string) : value :=
  match x with
  | None => VNone
  | Some s => VStr s
  end.

(** [d[key]] on a dict. *)
Definition getitem (d : gmap string value) (key : string) : result value :=
  match d !! key with
  | Some v => Ok v
  | None => Raise (KeyError key)
  end.

(** [v[key]] with a string key, on any value. *)
Definition subscript (v : value) (key : string) : result value :=
  match v with
  | VDict d => getitem d key
  | VNone => Raise (TypeError "'NoneType' object is not subscriptable")
  | VInt _ => Raise (TypeError "'int' object is not subscriptable")
  | VFloat _ => Raise (TypeError "'float' object is not subscriptable")
  | VCallable _ => Raise (TypeError "'function' object is not subscriptable")
  | VStr _ => Raise (TypeError "string indices must be integers")
  | VList _ => Raise (TypeError "list indices must be integers or slices, not str")
  end.

(** [d[outer][i][key] = v] on a dict [d] the caller owns: the functional
    update of the nested entry, with the errors each subscript raises. *)
Definition setitem_nested (d : gmap string value) (outer : string) (i : nat)
    (key : string) (v : value) : result (gmap string value) :=
  match d !! outer with
  | None => Raise (KeyError outer)
  | Some (VList l) =>
      match l !! i with
      | None => Raise IndexError
      | Some (VDict entry) =>
          Ok (<[outer := VList (<[i := VDict (<[key := v]> entry)]> l)]> d)
      | Some _ => Raise (TypeError "object does not support item assignment")
      end
  | Some _ => Raise (TypeError "object is not subscriptable by an integer")
  end.

End Py.
Import Py.

(** ** The external collaborators *)

(** The process environment after [load_dotenv(find_dotenv())], and the
    identity library: what calling a bearer-token provider yields (the
    token of the interactive login, or the error the login raises). *)
Record World : Type := {
  environ : gmap string string;
  call_provider : callable -> result string
}.

(** [os.getenv(name)] *)
Definition getenv (w : World) (name : string) : option string :=
  environ w !! name.

(** ** The instance and the monad of its methods *)

(** The attributes of an instance; [None] is an attribute not yet set. *)
Record OAIConfig : Type := {
  oai_auth_type : option string;
  oai_config : option (gmap string value)
}.

(** A method body: it reads and writes [self] and returns or raises; the
    state reached is kept when it raises. *)
Definition M (A : Type) : Type := OAIConfig -> result A * OAIConfig.

Definition ret {A} (a : A) : M A := fun self => (Ok a, self).

Definition bind {A B} (m : M A) (k : A -> M B) : M B :=
  fun self =>
    match m self with
    | (Ok a, self') => k a self'
    | (Raise e, self') => (Raise e, self')
    end.

Definition lift {A} (r : result A) : M A := fun self => (r, self).

Declare Scope py_scope.
Delimit Scope py_scope with py.
Notation "x <- m ;; k" := (bind m (fun x => k))
  (at level 100, m at next level, right associativity) : py_scope.
Notation "m ;;; k" := (bind m (fun _ => k))
  (at level 100, right associativity) : py_scope.
Local Open Scope py_scope.

(** [self.oai_auth_type] *)
Definition get_oai_auth_type : M string :=
  fun self =>
    match oai_auth_type self with
    | Some t => (Ok t, self)
    | None => (Raise (AttributeError "oai_auth_type"), self)
    end.

(** [self.oai_auth_type = t] *)
Definition set_oai_auth_type (t : string) : M unit :=
  fun self =>
    (Ok tt, {| oai_auth_type := Some t; oai_config := oai_config self |}).

(** [self.oai_config = d] *)
Definition set_oai_config (d : gmap string value) : M unit :=
  fun self =>
    (Ok tt, {| oai_auth_type := oai_auth_type self; oai_config := Some d |}).

(** [self.oai_config[key]] *)
Definition self_oai_config (key : string) : M value :=
  fun self =>
    match oai_config self with
    | Some d => (getitem d key, self)
    | None => (Raise (AttributeError "oai_config"), self)
    end.

(** ** The class *)

(** The optional arguments of the constructor (each defaults to [None]). *)
Record InitArgs : Type := {
  config_file : option string;
  api_key : option string;
  api_version : option string;
  endpoint_url : option string;
  model_name : option string
}.

Definition no_args : InitArgs :=
  {| config_file := None; api_key := None; api_version := None;
     endpoint_url := None; model_name := None |}.

Definition _use_azure_openai_api_key : M bool :=
  t <- get_oai_auth_type;;
  ret (String.eqb t "use_azure_openai_api_key").

Definition _use_azure_managed_identity : M bool :=
  t <- get_oai_auth_type;;
  ret (String.eqb t "use_azure_managed_identity").

Definition _use_openai_api_key : M bool :=
  t <- get_oai_auth_type;;
  ret (String.eqb t "use_openai_api_key").

(** The provider is built and then called: the method returns what the
    call yields. *)
Definition _get_bearer_token_provider (w : World) : M value :=
  let credential := InteractiveBrowserCredential in
  let bearer_token_provider :=
    get_bearer_token_provider credential
      "https://cognitiveservices.azure.com/.default" in
  token <- lift (call_provider w bearer_token_provider);;
  ret (VStr token).

Definition __init__ (w : World) (a : InitArgs) : M unit :=
  set_oai_auth_type
    (or_str (getenv w "OPENAI_AUTH_TYPE") "use_azure_openai_api_key");;;
  direct <- _use_openai_api_key;;
  if direct : bool then
    set_oai_config (dict [
      ("oai_key", of_optional (getenv w "OPENAI_API_KEY"));
      ("oai_model", of_optional (getenv w "OPENAI_API_MODEL"));
      ("oai_version", of_optional (getenv w "OPENAI_API_VERSION")) ])
  else
  azure_key <- _use_azure_openai_api_key;;
  if azure_key : bool then
    set_oai_config (dict [
      ("api_type", VStr "azure");
      ("api_version",
        of_optional (or_ (api_version a) (getenv w "OPENAI_API_VERSION")));
      ("aoai_key",
        of_optional (or_ (api_key a) (getenv w "AZURE_OPENAI_API_KEY")));
      ("aoai_endpoint",
        of_optional (or_ (endpoint_url a) (getenv w "AZURE_OPENAI_API_BASE")));
      ("aoai_deploy",
        of_optional (or_ (model_name a) (getenv w "AZURE_OPENAI_API_DEPLOY"))) ])
  else
  t <- get_oai_auth_type;;
  if String.eqb t "use_azure_managed_identity" then
    token_provider <- _get_bearer_token_provider w;;
    set_oai_config (dict [
      ("api_type", VStr "azure");
      ("api_version",
        of_optional (or_ (api_version a) (getenv w "OPENAI_API_VERSION")));
      ("azure_ad_token_provider", token_provider);
      ("aoai_endpoint",
        of_optional (or_ (endpoint_url a) (getenv w "AZURE_OPENAI_API_BASE")));
      ("aoai_deploy",
        of_optional (or_ (model_name a) (getenv w "AZURE_OPENAI_API_DEPLOY"))) ])
  else
    ret tt.

(** [OAIConfig(...)]: [__init__] runs on an object with no attribute set;
    the object exists only when [__init__] returns. *)
Definition new (w : World) (a : InitArgs) : result OAIConfig :=
  match __init__ w a {| oai_auth_type := None; oai_config := None |} with
  | (Ok _, self) => Ok self
  | (Raise e, _) => Raise e
  end.

Definition get_config : M value :=
  direct <- _use_openai_api_key;;
  if direct : bool then
    model <- self_oai_config "oai_model";;
    key <- self_oai_config "oai_key";;
    version <- self_oai_config "oai_version";;
    ret (VDict (dict [
      ("type", VStr "oai");
      ("model", model);
      ("api_key", key);
      ("api_version", version) ]))
  else
  azure_key <- _use_azure_openai_api_key;;
  if azure_key : bool then
    endpoint <- self_oai_config "aoai_endpoint";;
    version <- self_oai_config "api_version";;
    key <- self_oai_config "aoai_key";;
    model <- self_oai_config "aoai_deploy";;
    ret (VDict (dict [
      ("type", VStr "aoai");
      ("aoai_args", VDict (dict [
        ("azure_endpoint", endpoint);
        ("api_version", version);
        ("api_key", key) ]));
      ("model", model) ]))
  else
  managed <- _use_azure_managed_identity;;
  if managed : bool then
    endpoint <- self_oai_config "aoai_endpoint";;
    version <- self_oai_config "api_version";;
    provider <- self_oai_config "azure_ad_token_provider";;
    model <- self_oai_config "aoai_deploy";;
    ret (VDict (dict [
      ("type", VStr "aoai");
      ("aoai_args", VDict (dict [
        ("azure_endpoint", endpoint);
        ("api_version", version);
        ("azure_ad_token_provider", provider) ]));
      ("model", model) ]))
  else
    ret (VDict (dict [])).

(** The body of the cloud branch of [get_default_autogen_config]; the
    local [llm_config] is a fresh dict, updated in place before it is
    returned. *)
Definition cloud_llm_config : M value :=
  api_type <- self_oai_config "api_type";;
  version <- self_oai_config "api_version";;
  endpoint <- self_oai_config "aoai_endpoint";;
  deploy <- self_oai_config "aoai_deploy";;
  let llm_config := dict [
    ("config_list", VList [VDict (dict [
      ("api_type", api_type);
      ("api_version", version);
      ("base_url", endpoint);
      ("model", deploy) ])]);
    ("cache_seed", VNone) ] in
  azure_key <- _use_azure_openai_api_key;;
  if azure_key : bool then
    key <- self_oai_config "aoai_key";;
    llm_config' <- lift (setitem_nested llm_config "config_list" 0 "api_key" key);;
    ret (VDict llm_config')
  else
  managed <- _use_azure_managed_identity;;
  if managed : bool then
    provider <- self_oai_config "azure_ad_token_provider";;
    llm_config' <- lift (setitem_nested llm_config "config_list" 0
                           "azure_ad_token_provider" provider);;
    ret (VDict llm_config')
  else
    ret (VDict llm_config).

(** Falling off the end of the method returns [None]. *)
Definition get_default_autogen_config : M value :=
  direct <- _use_openai_api_key;;
  if direct : bool then
    model <- self_oai_config "oai_model";;
    ret (VDict (dict [ ("model", model) ]))
  else
  azure_key <- _use_azure_openai_api_key;;
  managed <- (if azure_key : bool then ret true else _use_azure_managed_identity);;
  if managed : bool then cloud_llm_config
  else ret VNone.

Definition get_custom_autogen_config
    (seed temperature max_tokens timeout : value) : M value :=
  default <- get_default_autogen_config;;
  config_list <- lift (subscript default "config_list");;
  ret (VDict (dict [
    ("config_list", config_list);
    ("seed", seed);
    ("temperature", temperature);
    ("max_tokens", max_tokens);
    ("timeout", timeout);
    ("cache_seed", VNone) ])).

(** The defaults of the four keyword arguments. *)
Definition default_seed : value := VInt 47.
Definition default_temperature : value := VFloat (1 # 2).
Definition default_max_tokens : value := VInt (-1).
Definition default_timeout : value := VInt 6000.

(** ** What the statements are about *)

(** The auth mode the environment selects (the right-hand side of the
    first assignment of [__init__]). *)
Definition selector (w : World) : string :=
  or_str (getenv w "OPENAI_AUTH_TYPE") "use_azure_openai_api_key".

Definition recognized (t : string) : Prop :=
  t = "use_openai_api_key" \/ t = "use_azure_openai_api_key"
  \/ t = "use_azure_managed_identity".

(** The provider [_get_bearer_token_provider] builds. *)
Definition the_provider : callable :=
  get_bearer_token_provider InteractiveBrowserCredential
    "https://cognitiveservices.azure.com/.default".

Definition direct_credentials (w : World) : gmap string value :=
  dict [
    ("oai_key", of_optional (getenv w "OPENAI_API_KEY"));
    ("oai_model", of_optional (getenv w "OPENAI_API_MODEL"));
    ("oai_version", of_optional (getenv w "OPENAI_API_VERSION")) ].

Definition azure_key_credentials (w : World) (a : InitArgs) : gmap string value :=
  dict [
    ("api_type", VStr "azure");
    ("api_version",
      of_optional (or_ (api_version a) (getenv w "OPENAI_API_VERSION")));
    ("aoai_key",
      of_optional (or_ (api_key a) (getenv w "AZURE_OPENAI_API_KEY")));
    ("aoai_endpoint",
      of_optional (or_ (endpoint_url a) (getenv w "AZURE_OPENAI_API_BASE")));
    ("aoai_deploy",
      of_optional (or_ (model_name a) (getenv w "AZURE_OPENAI_API_DEPLOY"))) ].

Definition managed_credentials (w : World) (a : InitArgs) (stored : value)
    : gmap string value :=
  dict [
    ("api_type", VStr "azure");
    ("api_version",
      of_optional (or_ (api_version a) (getenv w "OPENAI_API_VERSION")));
    ("azure_ad_token_provider", stored);
    ("aoai_endpoint",
      of_optional (or_ (endpoint_url a) (getenv w "AZURE_OPENAI_API_BASE")));
    ("aoai_deploy",
      of_optional (or_ (model_name a) (getenv w "AZURE_OPENAI_API_DEPLOY"))) ].

(** A method that only reads [self]. *)
Definition read_only {A} (m : M A) : Prop := forall self, (m self).2 = self.

(** A credentials field follows its override [o] and its environment
    value [e] as the specification words it: the override whenever one is
    supplied, the environment value otherwise. *)
Definition override_when_supplied (o e : option string) (field : option value)
    : Prop :=
  (forall s, o = Some s -> field = Some (VStr s)) /\
  (o = None -> field = Some (of_optional e)).

(** The same, as the code has it: an empty override counts as none. *)
Definition override_when_nonempty (o e : option string) (field : option value)
    : Prop :=
  (forall s, o = Some s -> s <> "" -> field = Some (VStr s)) /\
  (o = None \/ o = Some "" -> field = Some (of_optional e)).

Definition override_precedence_as_stated : Prop :=
  forall w a self cfg,
    selector w = "use_azure_openai_api_key" ->
    new w a = Ok self -> oai_config self = Some cfg ->
    override_when_supplied (api_key a) (getenv w "AZURE_OPENAI_API_KEY")
      (cfg !! "aoai_key") /\
    override_when_supplied (endpoint_url a) (getenv w "AZURE_OPENAI_API_BASE")
      (cfg !! "aoai_endpoint") /\
    override_when_supplied (model_name a) (getenv w "AZURE_OPENAI_API_DEPLOY")
      (cfg !! "aoai_deploy") /\
    override_when_supplied (api_version a) (getenv w "OPENAI_API_VERSION")
      (cfg !! "api_version").

(** The provider type tags as the specification words them. *)
Definition provider_tag_as_stated : Prop :=
  forall w a self,
    new w a = Ok self ->
    (selector w = "use_openai_api_key" ->
       exists d, get_config self = (Ok (VDict d), self) /\
                 d !! "type" = Some (VStr "direct")) /\
    (selector w = "use_azure_openai_api_key"
     \/ selector w = "use_azure_managed_identity" ->
       exists d, get_config self = (Ok (VDict d), self) /\
                 d !! "type" = Some (VStr "cloud")).

(** The one entry of the config list, before the key or the provider is
    added to it. *)
Definition config_entry (api_type version endpoint deploy : value)
    : gmap string value :=
  dict [ ("api_type", api_type); ("api_version", version);
         ("base_url", endpoint); ("model", deploy) ].

(** The four configuration fields both cloud modes share. *)
Definition cloud_fields (cfg : gmap string value)
    (api_type version endpoint deploy : value) : Prop :=
  cfg !! "api_type" = Some api_type /\ cfg !! "api_version" = Some version /\
  cfg !! "aoai_endpoint" = Some endpoint /\ cfg !! "aoai_deploy" = Some deploy.

(** ** Concrete worlds, arguments and instances *)

Definition login_fails : callable -> result string :=
  fun _ => Raise (ClientAuthenticationError "login cancelled").

Definition login_yields (token : string) : callable -> result string :=
  fun _ => Ok token.

Definition w_direct : World :=
  {| environ := list_to_map [
       ("OPENAI_AUTH_TYPE", "use_openai_api_key");
       ("OPENAI_API_KEY", "sk-1");
       ("OPENAI_API_MODEL", "gpt-4") ];
     call_provider := login_fails |}.

Definition w_azure_key : World :=
  {| environ := list_to_map [
       ("AZURE_OPENAI_API_KEY", "k-env");
       ("AZURE_OPENAI_API_BASE", "https://env.example") ];
     call_provider := login_fails |}.

Definition w_managed : World :=
  {| environ := list_to_map [
       ("OPENAI_AUTH_TYPE", "use_azure_managed_identity");
       ("AZURE_OPENAI_API_DEPLOY", "dep-env") ];
     call_provider := login_yields "eyJ0eXAi" |}.

Definition w_unrecognized : World :=
  {| environ := list_to_map [ ("OPENAI_AUTH_TYPE", "use_aws_bedrock") ];
     call_provider := login_fails |}.

Definition all_args : InitArgs :=
  {| config_file := Some "OAI_CONFIG_LIST"; api_key := Some "k-arg";
     api_version := Some "2024-02-01"; endpoint_url := Some "https://arg.example";
     model_name := Some "dep-arg" |}.

Definition empty_key_args : InitArgs :=
  {| config_file := None; api_key := Some ""; api_version := None;
     endpoint_url := None; model_name := None |}.

Definition unrecognized_instance : OAIConfig :=
  {| oai_auth_type := Some "use_aws_bedrock"; oai_config := None |}.

(** Managed-identity mode selected, nothing else configured, and an
    interactive login that fails. *)
Definition w_managed_nologin : World :=
  {| environ := list_to_map [ ("OPENAI_AUTH_TYPE", "use_azure_managed_identity") ];
     call_provider := login_fails |}.

Definition azure_key_instance : OAIConfig :=
  {| oai_auth_type := Some "use_azure_openai_api_key";
     oai_config := Some (azure_key_credentials w_azure_key all_args) |}.

Definition managed_instance : OAIConfig :=
  {| oai_auth_type := Some "use_azure_managed_identity";
     oai_config :=
       Some (managed_credentials w_managed no_args (VStr "eyJ0eXAi")) |}.

(** ** What construction consults *)

Definition cloud_mode (t : string) : Prop :=
  t = "use_azure_openai_api_key" \/ t = "use_azure_managed_identity".

(** The environment variables [__init__] reads in the mode [t], besides
    the selector OPENAI_AUTH_TYPE. *)
Definition consulted_env (t : string) : list string :=
  if String.eqb t "use_openai_api_key" then
    [ "OPENAI_API_KEY"; "OPENAI_API_MODEL"; "OPENAI_API_VERSION" ]
  else if String.eqb t "use_azure_openai_api_key" then
    [ "OPENAI_API_VERSION"; "AZURE_OPENAI_API_KEY"; "AZURE_OPENAI_API_BASE";
      "AZURE_OPENAI_API_DEPLOY" ]
  else if String.eqb t "use_azure_managed_identity" then
    [ "OPENAI_API_VERSION"; "AZURE_OPENAI_API_BASE"; "AZURE_OPENAI_API_DEPLOY" ]
  else [].

(** Two sets of arguments agree on the overrides [__init__] reads in the
    mode [t]; [config_file] is read in no mode. *)
Definition consulted_args_agree (t : string) (a a' : InitArgs) : Prop :=
  if String.eqb t "use_openai_api_key" then True
  else if String.eqb t "use_azure_openai_api_key" then
    api_version a = api_version a' /\ api_key a = api_key a' /\
    endpoint_url a = endpoint_url a' /\ model_name a = model_name a'
  else if String.eqb t "use_azure_managed_identity" then
    api_version a = api_version a' /\
    endpoint_url a = endpoint_url a' /\ model_name a = model_name a'
  else True.

(** The environment of [w_managed] with unrelated variables added, and an
    identity library that differs from [w_managed]'s away from the
    provider construction builds. *)
Definition w_managed_noisy : World :=
  {| environ := list_to_map [
       ("OPENAI_AUTH_TYPE", "use_azure_managed_identity");
       ("AZURE_OPENAI_API_DEPLOY", "dep-env");
       ("AZURE_OPENAI_API_KEY", "k-unused");
       ("OPENAI_API_KEY", "sk-unused") ];
     call_provider := fun f =>
       match f with
       | get_bearer_token_provider _ scope =>
           if String.eqb scope "https://cognitiveservices.azure.com/.default"
           then Ok "eyJ0eXAi"
           else Raise (ClientAuthenticationError "unknown scope")
       end |}.

Definition key_and_file_args : InitArgs :=
  {| config_file := Some "OAI_CONFIG_LIST"; api_key := Some "k-arg";
     api_version := None; endpoint_url := None; model_name := None |}.

(** ** Construction, mode by mode *)

Lemma new_direct w a :
  selector w = "use_openai_api_key" ->
  new w a = Ok {| oai_auth_type := Some "use_openai_api_key";
                  oai_config := Some (direct_credentials w) |}.
Proof.
  unfold selector. intros Hsel. unfold new, __init__. rewrite Hsel. reflexivity.
Qed.

Lemma new_azure_key w a :
  selector w = "use_azure_openai_api_key" ->
  new w a = Ok {| oai_auth_type := Some "use_azure_openai_api_key";
                  oai_config := Some (azure_key_credentials w a) |}.
Proof.
  unfold selector. intros Hsel. unfold new, __init__. rewrite Hsel. reflexivity.
Qed.

Lemma new_managed_ok w a token :
  selector w = "use_azure_managed_identity" ->
  call_provider w the_provider = Ok token ->
  new w a = Ok {| oai_auth_type := Some "use_azure_managed_identity";
                  oai_config := Some (managed_credentials w a (VStr token)) |}.
Proof.
  unfold selector, the_provider. intros Hsel Hcall.
  unfold new, __init__. rewrite Hsel.
  cbv [bind set_oai_auth_type _use_openai_api_key _use_azure_openai_api_key
       get_oai_auth_type ret oai_auth_type oai_config
       _get_bearer_token_provider lift].
  cbn [String.eqb Ascii.eqb Bool.eqb]. rewrite Hcall. reflexivity.
Qed.

Lemma new_managed_raise w a e :
  selector w = "use_azure_managed_identity" ->
  call_provider w the_provider = Raise e ->
  new w a = Raise e.
Proof.
  unfold selector, the_provider. intros Hsel Hcall.
  unfold new, __init__. rewrite Hsel.
  cbv [bind set_oai_auth_type _use_openai_api_key _use_azure_openai_api_key
       get_oai_auth_type ret oai_auth_type oai_config
       _get_bearer_token_provider lift].
  cbn [String.eqb Ascii.eqb Bool.eqb]. rewrite Hcall. reflexivity.
Qed.

Lemma new_unrecognized w a :
  ~ recognized (selector w) ->
  new w a = Ok {| oai_auth_type := Some (selector w); oai_config := None |}.
Proof.
  unfold recognized. intros Hnot.
  assert (H1 : String.eqb (selector w) "use_openai_api_key" = false)
    by (apply String.eqb_neq; tauto).
  assert (H2 : String.eqb (selector w) "use_azure_openai_api_key" = false)
    by (apply String.eqb_neq; tauto).
  assert (H3 : String.eqb (selector w) "use_azure_managed_identity" = false)
    by (apply String.eqb_neq; tauto).
  unfold new, __init__. fold (selector w).
  cbv [bind set_oai_auth_type _use_openai_api_key _use_azure_openai_api_key
       get_oai_auth_type ret oai_auth_type oai_config].
  rewrite H1, H2, H3. reflexivity.
Qed.

Lemma new_managed_inv w a self :
  selector w = "use_azure_managed_identity" ->
  new w a = Ok self ->
  exists token,
    call_provider w the_provider = Ok token /\
    self = {| oai_auth_type := Some "use_azure_managed_identity";
              oai_config := Some (managed_credentials w a (VStr token)) |}.
Proof.
  intros Hsel Hnew.
  destruct (call_provider w the_provider) as [token | e] eqn:Hcall.
  - exists token. split; [ reflexivity | ].
    rewrite (new_managed_ok w a token Hsel Hcall) in Hnew. congruence.
  - rewrite (new_managed_raise w a e Hsel Hcall) in Hnew. discriminate Hnew.
Qed.

(** ** Methods that only read [self] *)

Lemma read_only_ret {A} (a : A) : read_only (ret a).
Proof. intros self. reflexivity. Qed.

Lemma read_only_lift {A} (r : result A) : read_only (lift r).
Proof. intros self. reflexivity. Qed.

Lemma read_only_bind {A B} (m : M A) (k : A -> M B) :
  read_only m -> (forall a, read_only (k a)) -> read_only (bind m k).
Proof.
  intros Hm Hk self. unfold bind. specialize (Hm self).
  destruct (m self) as [[x | e] self']; simpl in Hm; subst self'.
  - apply Hk.
  - reflexivity.
Qed.

Lemma read_only_if {A} (b : bool) (m1 m2 : M A) :
  read_only m1 -> read_only m2 -> read_only (if b then m1 else m2).
Proof. destruct b; trivial. Qed.

Lemma read_only_get_oai_auth_type : read_only get_oai_auth_type.
Proof. intros self. unfold get_oai_auth_type. destruct (oai_auth_type self); reflexivity. Qed.

Lemma read_only_self_oai_config key : read_only (self_oai_config key).
Proof. intros self. unfold self_oai_config. destruct (oai_config self); reflexivity. Qed.

Create HintDb read_only.
#[local] Hint Resolve read_only_ret read_only_lift read_only_get_oai_auth_type
  read_only_self_oai_config : read_only.

Ltac read_only_steps :=
  repeat first
    [ apply read_only_bind; [ | intro ]
    | apply read_only_if
    | solve [ auto with read_only ] ].

Lemma read_only_use_openai_api_key : read_only _use_openai_api_key.
Proof. unfold _use_openai_api_key. read_only_steps. Qed.

Lemma read_only_use_azure_openai_api_key : read_only _use_azure_openai_api_key.
Proof. unfold _use_azure_openai_api_key. read_only_steps. Qed.

Lemma read_only_use_azure_managed_identity : read_only _use_azure_managed_identity.
Proof. unfold _use_azure_managed_identity. read_only_steps. Qed.

#[local] Hint Resolve read_only_use_openai_api_key
  read_only_use_azure_openai_api_key read_only_use_azure_managed_identity
  : read_only.

Lemma read_only_get_config : read_only get_config.
Proof. unfold get_config. read_only_steps. Qed.

Lemma read_only_cloud_llm_config : read_only cloud_llm_config.
Proof. unfold cloud_llm_config. read_only_steps. Qed.

#[local] Hint Resolve read_only_cloud_llm_config : read_only.

Lemma read_only_get_default_autogen_config : read_only get_default_autogen_config.
Proof. unfold get_default_autogen_config. read_only_steps. Qed.

#[local] Hint Resolve read_only_get_default_autogen_config : read_only.

Lemma read_only_get_custom_autogen_config seed temperature max_tokens timeout :
  read_only (get_custom_autogen_config seed temperature max_tokens timeout).
Proof. unfold get_custom_autogen_config. read_only_steps. Qed.

(** A method that only reads returns the same result when called again. *)
Lemma read_only_again {A} (m : M A) self :
  read_only m -> (m (m self).2).1 = (m self).1.
Proof. intros Hm. rewrite Hm. reflexivity. Qed.

(** ** Overrides and environment values *)

Lemma or_override_when_nonempty o e :
  override_when_nonempty o e (Some (of_optional (or_ o e))).
Proof.
  split.
  - intros s -> Hs. unfold or_, truthy.
    destruct (String.eqb_spec s ""); [ contradiction | reflexivity ].
  - intros [-> | ->]; reflexivity.
Qed.

Lemma or_absent o e :
  o = None \/ o = Some "" -> e = None -> of_optional (or_ o e) = VNone.
Proof. intros [-> | ->] ->; reflexivity. Qed.

(** ** The claims *)

(** C1: in managed-identity mode the constructor is meant to store the
    bearer-token provider (a callable) under [azure_ad_token_provider].
    The code calls the provider first: whenever the call returns a token,
    the field holds that token string, and never a callable. *)
Theorem managed_identity_stores_token_value w a token :
  selector w = "use_azure_managed_identity" ->
  call_provider w the_provider = Ok token ->
  exists self cfg,
    new w a = Ok self /\ oai_config self = Some cfg /\
    cfg !! "azure_ad_token_provider" = Some (VStr token) /\
    forall f, cfg !! "azure_ad_token_provider" <> Some (VCallable f).
Proof.
  intros Hsel Hcall. eexists. eexists.
  split; [ exact (new_managed_ok w a token Hsel Hcall) | ].
  split; [ reflexivity | ].
  assert (Hget : managed_credentials w a (VStr token) !! "azure_ad_token_provider"
                 = Some (VStr token)) by reflexivity.
  split; [ exact Hget | ].
  intros f Hf. simpl in Hf. rewrite Hget in Hf. discriminate Hf.
Qed.

Lemma managed_identity_stores_token_value_witness :
  selector w_managed = "use_azure_managed_identity" /\
  call_provider w_managed the_provider = Ok "eyJ0eXAi" /\
  exists self cfg,
    new w_managed no_args = Ok self /\ oai_config self = Some cfg /\
    cfg !! "azure_ad_token_provider" = Some (VStr "eyJ0eXAi") /\
    forall f, cfg !! "azure_ad_token_provider" <> Some (VCallable f).
Proof.
  split; [ reflexivity | ]. split; [ reflexivity | ].
  apply (managed_identity_stores_token_value w_managed no_args "eyJ0eXAi");
    reflexivity.
Defined.

(** C2: on every instance whose auth type is none of the three recognized
    modes, [get_config] returns the empty dict, [get_default_autogen_config]
    returns [None], and [get_custom_autogen_config], which subscripts that
    [None], raises the TypeError of an invalid subscript, whatever its
    arguments. *)
Theorem unrecognized_mode_accessors self t :
  oai_auth_type self = Some t ->
  ~ recognized t ->
  get_config self = (Ok (VDict ∅), self) /\
  get_default_autogen_config self = (Ok VNone, self) /\
  forall seed temperature max_tokens timeout,
    get_custom_autogen_config seed temperature max_tokens timeout self =
      (Raise (TypeError "'NoneType' object is not subscriptable"), self).
Proof.
  unfold recognized. intros Ht Hnot.
  assert (H1 : String.eqb t "use_openai_api_key" = false)
    by (apply String.eqb_neq; tauto).
  assert (H2 : String.eqb t "use_azure_openai_api_key" = false)
    by (apply String.eqb_neq; tauto).
  assert (H3 : String.eqb t "use_azure_managed_identity" = false)
    by (apply String.eqb_neq; tauto).
  assert (Hdefault : get_default_autogen_config self = (Ok VNone, self)).
  { cbv [get_default_autogen_config bind _use_openai_api_key
         _use_azure_openai_api_key _use_azure_managed_identity
         get_oai_auth_type ret].
    repeat (cbv beta iota; rewrite ?Ht, ?H1, ?H2, ?H3). reflexivity. }
  split; [ | split; [ exact Hdefault | ] ].
  - cbv [get_config bind _use_openai_api_key _use_azure_openai_api_key
         _use_azure_managed_identity get_oai_auth_type ret].
    repeat (cbv beta iota; rewrite ?Ht, ?H1, ?H2, ?H3). reflexivity.
  - intros seed temperature max_tokens timeout.
    unfold get_custom_autogen_config, bind. rewrite Hdefault. reflexivity.
Qed.

Lemma unrecognized_mode_accessors_witness :
  new w_unrecognized all_args = Ok unrecognized_instance /\
  get_config unrecognized_instance = (Ok (VDict ∅), unrecognized_instance) /\
  get_default_autogen_config unrecognized_instance
    = (Ok VNone, unrecognized_instance) /\
  forall seed temperature max_tokens timeout,
    get_custom_autogen_config seed temperature max_tokens timeout
      unrecognized_instance =
      (Raise (TypeError "'NoneType' object is not subscriptable"),
       unrecognized_instance).
Proof.
  split; [ reflexivity | ].
  apply (unrecognized_mode_accessors unrecognized_instance "use_aws_bedrock").
  - reflexivity.
  - unfold recognized. intros [H | [H | H]]; discriminate H.
Defined.

(** C3, as stated, fails: with AZURE_OPENAI_API_KEY set to "k-env" and the
    override [api_key=""] supplied, the key field is "k-env", not the
    override. *)
Lemma override_precedence_fails_on_empty_override :
  ~ override_precedence_as_stated.
Proof.
  intros H.
  destruct (H w_azure_key empty_key_args _ _ eq_refl eq_refl eq_refl)
    as [[Hkey _] _].
  specialize (Hkey "" eq_refl). vm_compute in Hkey. discriminate Hkey.
Qed.

(** C3, amended: in cloud-api-key mode, and in managed-identity mode once
    the provider call has returned, construction succeeds and each of the
    endpoint, deployment and API-version fields (and the key field in
    cloud-api-key mode) is the constructor override when that is a
    non-empty string, and the environment value ([None] when unset) when
    the override is absent or empty. *)
Theorem override_precedence w a :
  selector w = "use_azure_openai_api_key"
  \/ (selector w = "use_azure_managed_identity"
      /\ exists token, call_provider w the_provider = Ok token) ->
  exists self cfg,
    new w a = Ok self /\ oai_config self = Some cfg /\
    (selector w = "use_azure_openai_api_key" ->
       override_when_nonempty (api_key a) (getenv w "AZURE_OPENAI_API_KEY")
         (cfg !! "aoai_key")) /\
    override_when_nonempty (endpoint_url a) (getenv w "AZURE_OPENAI_API_BASE")
      (cfg !! "aoai_endpoint") /\
    override_when_nonempty (model_name a) (getenv w "AZURE_OPENAI_API_DEPLOY")
      (cfg !! "aoai_deploy") /\
    override_when_nonempty (api_version a) (getenv w "OPENAI_API_VERSION")
      (cfg !! "api_version").
Proof.
  intros [Hsel | [Hsel [token Hcall]]].
  - eexists. eexists. split; [ exact (new_azure_key w a Hsel) | ].
    split; [ reflexivity | ].
    split; [ intros _ | split; [ | split ] ];
      match goal with
      | |- override_when_nonempty ?o ?e _ =>
          exact (or_override_when_nonempty o e)
      end.
  - eexists. eexists. split; [ exact (new_managed_ok w a token Hsel Hcall) | ].
    split; [ reflexivity | ].
    split; [ intros Hsel'; rewrite Hsel in Hsel'; discriminate Hsel' | ].
    split; [ | split ];
      match goal with
      | |- override_when_nonempty ?o ?e _ =>
          exact (or_override_when_nonempty o e)
      end.
Qed.

Lemma override_precedence_witness :
  (selector w_azure_key = "use_azure_openai_api_key"
   \/ (selector w_azure_key = "use_azure_managed_identity"
       /\ exists token, call_provider w_azure_key the_provider = Ok token)) /\
  exists self cfg,
    new w_azure_key all_args = Ok self /\ oai_config self = Some cfg /\
    (selector w_azure_key = "use_azure_openai_api_key" ->
       override_when_nonempty (api_key all_args)
         (getenv w_azure_key "AZURE_OPENAI_API_KEY") (cfg !! "aoai_key")) /\
    override_when_nonempty (endpoint_url all_args)
      (getenv w_azure_key "AZURE_OPENAI_API_BASE") (cfg !! "aoai_endpoint") /\
    override_when_nonempty (model_name all_args)
      (getenv w_azure_key "AZURE_OPENAI_API_DEPLOY") (cfg !! "aoai_deploy") /\
    override_when_nonempty (api_version all_args)
      (getenv w_azure_key "OPENAI_API_VERSION") (cfg !! "api_version").
Proof.
  split; [ left; reflexivity | ].
  apply (override_precedence w_azure_key all_args). left. reflexivity.
Defined.

(** C4: in direct-api-key mode the credentials hold the key, the model and
    the version read from the environment and nothing else; any two sets
    of constructor arguments build the same instance. *)
Theorem direct_mode_ignores_overrides w a1 a2 :
  selector w = "use_openai_api_key" ->
  new w a1 = new w a2 /\
  exists self cfg,
    new w a1 = Ok self /\ oai_config self = Some cfg /\
    cfg !! "oai_key" = Some (of_optional (getenv w "OPENAI_API_KEY")) /\
    cfg !! "oai_model" = Some (of_optional (getenv w "OPENAI_API_MODEL")) /\
    cfg !! "oai_version" = Some (of_optional (getenv w "OPENAI_API_VERSION")) /\
    dom cfg = {[ "oai_key"; "oai_model"; "oai_version" ]}.
Proof.
  intros Hsel. split.
  - rewrite (new_direct w a1 Hsel), (new_direct w a2 Hsel). reflexivity.
  - eexists. eexists. split; [ exact (new_direct w a1 Hsel) | ].
    split; [ reflexivity | ].
    repeat split; reflexivity.
Qed.

Lemma direct_mode_ignores_overrides_witness :
  selector w_direct = "use_openai_api_key" /\
  new w_direct no_args = new w_direct all_args /\
  exists self cfg,
    new w_direct no_args = Ok self /\ oai_config self = Some cfg /\
    cfg !! "oai_key" = Some (of_optional (getenv w_direct "OPENAI_API_KEY")) /\
    cfg !! "oai_model" = Some (of_optional (getenv w_direct "OPENAI_API_MODEL")) /\
    cfg !! "oai_version"
      = Some (of_optional (getenv w_direct "OPENAI_API_VERSION")) /\
    dom cfg = {[ "oai_key"; "oai_model"; "oai_version" ]}.
Proof.
  split; [ reflexivity | ].
  apply (direct_mode_ignores_overrides w_direct no_args all_args). reflexivity.
Defined.

(** C5: when OPENAI_AUTH_TYPE is unset or empty, construction succeeds and
    the instance is in cloud-api-key mode; the auth type is written by the
    constructor only: no accessor changes it afterwards. *)
Theorem absent_selector_defaults_to_azure_key w a :
  getenv w "OPENAI_AUTH_TYPE" = None \/ getenv w "OPENAI_AUTH_TYPE" = Some "" ->
  exists self,
    new w a = Ok self /\
    oai_auth_type self = Some "use_azure_openai_api_key" /\
    _use_azure_openai_api_key self = (Ok true, self) /\
    _use_openai_api_key self = (Ok false, self) /\
    _use_azure_managed_identity self = (Ok false, self) /\
    oai_auth_type (get_config self).2 = oai_auth_type self /\
    oai_auth_type (get_default_autogen_config self).2 = oai_auth_type self /\
    forall seed temperature max_tokens timeout,
      oai_auth_type
        (get_custom_autogen_config seed temperature max_tokens timeout self).2
      = oai_auth_type self.
Proof.
  intros Habsent.
  assert (Hsel : selector w = "use_azure_openai_api_key").
  { unfold selector. destruct Habsent as [-> | ->]; reflexivity. }
  eexists. split; [ exact (new_azure_key w a Hsel) | ].
  do 4 (split; [ reflexivity | ]).
  split; [ | split ].
  - rewrite read_only_get_config. reflexivity.
  - rewrite read_only_get_default_autogen_config. reflexivity.
  - intros. rewrite read_only_get_custom_autogen_config. reflexivity.
Qed.

Lemma absent_selector_defaults_to_azure_key_witness :
  (getenv w_azure_key "OPENAI_AUTH_TYPE" = None
   \/ getenv w_azure_key "OPENAI_AUTH_TYPE" = Some "") /\
  exists self,
    new w_azure_key all_args = Ok self /\
    oai_auth_type self = Some "use_azure_openai_api_key" /\
    _use_azure_openai_api_key self = (Ok true, self) /\
    _use_openai_api_key self = (Ok false, self) /\
    _use_azure_managed_identity self = (Ok false, self) /\
    oai_auth_type (get_config self).2 = oai_auth_type self /\
    oai_auth_type (get_default_autogen_config self).2 = oai_auth_type self /\
    forall seed temperature max_tokens timeout,
      oai_auth_type
        (get_custom_autogen_config seed temperature max_tokens timeout self).2
      = oai_auth_type self.
Proof.
  split; [ left; reflexivity | ].
  apply (absent_selector_defaults_to_azure_key w_azure_key all_args).
  left. reflexivity.
Defined.

(** C6: on a constructed instance [get_default_autogen_config] returns,
    in direct-api-key mode, the dict with the single key [model] (the
    credentials' model); in cloud-api-key mode, a dict of [config_list] and
    [cache_seed: None] whose list has one entry made of the credentials'
    API type, API version, endpoint ([base_url]) and deployment ([model])
    plus the key ([api_key]). In managed-identity mode the shape is the
    same, but what the entry carries under [azure_ad_token_provider] is
    not a reference to the provider: it is the token string that the
    provider call returned during construction. *)
Theorem get_default_autogen_config_shape w a self :
  new w a = Ok self ->
  (selector w = "use_openai_api_key" ->
     exists cfg model,
       oai_config self = Some cfg /\ cfg !! "oai_model" = Some model /\
       get_default_autogen_config self
         = (Ok (VDict {[ "model" := model ]}), self)) /\
  (selector w = "use_azure_openai_api_key" ->
     exists cfg api_type version endpoint deploy key,
       oai_config self = Some cfg /\
       cloud_fields cfg api_type version endpoint deploy /\
       cfg !! "aoai_key" = Some key /\
       get_default_autogen_config self
         = (Ok (VDict (dict [
              ("config_list", VList [
                 VDict (<["api_key" := key]>
                          (config_entry api_type version endpoint deploy)) ]);
              ("cache_seed", VNone) ])), self)) /\
  (selector w = "use_azure_managed_identity" ->
     exists cfg api_type version endpoint deploy token,
       oai_config self = Some cfg /\
       cloud_fields cfg api_type version endpoint deploy /\
       call_provider w the_provider = Ok token /\
       cfg !! "azure_ad_token_provider" = Some (VStr token) /\
       get_default_autogen_config self
         = (Ok (VDict (dict [
              ("config_list", VList [
                 VDict (<["azure_ad_token_provider" := VStr token]>
                          (config_entry api_type version endpoint deploy)) ]);
              ("cache_seed", VNone) ])), self)).
Proof.
  intros Hnew. split; [ | split ]; intros Hsel.
  - rewrite (new_direct w a Hsel) in Hnew. injection Hnew as <-.
    eexists. eexists. split; [ reflexivity | ].
    split; reflexivity.
  - rewrite (new_azure_key w a Hsel) in Hnew. injection Hnew as <-.
    do 6 eexists. split; [ reflexivity | ].
    split; [ repeat split; reflexivity | ].
    split; reflexivity.
  - destruct (new_managed_inv w a self Hsel Hnew) as [token [Hcall ->]].
    do 5 eexists. exists token. split; [ reflexivity | ].
    split; [ repeat split; reflexivity | ].
    split; [ exact Hcall | ].
    split; reflexivity.
Qed.

Lemma get_default_autogen_config_shape_witness :
  new w_managed no_args = Ok managed_instance /\
  exists cfg api_type version endpoint deploy token,
    oai_config managed_instance = Some cfg /\
    cloud_fields cfg api_type version endpoint deploy /\
    call_provider w_managed the_provider = Ok token /\
    cfg !! "azure_ad_token_provider" = Some (VStr token) /\
    get_default_autogen_config managed_instance
      = (Ok (VDict (dict [
           ("config_list", VList [
              VDict (<["azure_ad_token_provider" := VStr token]>
                       (config_entry api_type version endpoint deploy)) ]);
           ("cache_seed", VNone) ])), managed_instance).
Proof.
  split; [ reflexivity | ].
  apply (get_default_autogen_config_shape w_managed no_args
           managed_instance eq_refl).
  reflexivity.
Defined.

(** C7, as stated, fails: in direct-api-key mode the type tag [get_config]
    returns is "oai", not "direct". *)
Lemma provider_tag_is_not_direct : ~ provider_tag_as_stated.
Proof.
  intros H.
  destruct (H w_direct no_args _ eq_refl) as [Hdirect _].
  destruct (Hdirect eq_refl) as [d [Hget Htag]].
  vm_compute in Hget. injection Hget as <-.
  vm_compute in Htag. discriminate Htag.
Qed.

(** C7, amended: on a constructed instance in a recognized mode
    [get_config] returns a dict whose [type] is "oai" in direct-api-key
    mode and "aoai" in both cloud modes; with it, in direct mode, the
    credentials' model, key and version; in the cloud modes, the deployment
    under [model] and, nested under [aoai_args], the endpoint, the version
    and the key (cloud-api-key mode) or the value of the credentials'
    token-provider field (managed-identity mode). *)
Theorem get_config_shape w a self :
  new w a = Ok self ->
  (selector w = "use_openai_api_key" ->
     exists cfg model key version,
       oai_config self = Some cfg /\
       cfg !! "oai_model" = Some model /\ cfg !! "oai_key" = Some key /\
       cfg !! "oai_version" = Some version /\
       get_config self
         = (Ok (VDict (dict [
              ("type", VStr "oai"); ("model", model);
              ("api_key", key); ("api_version", version) ])), self)) /\
  (selector w = "use_azure_openai_api_key" ->
     exists cfg api_type version endpoint deploy key,
       oai_config self = Some cfg /\
       cloud_fields cfg api_type version endpoint deploy /\
       cfg !! "aoai_key" = Some key /\
       get_config self
         = (Ok (VDict (dict [
              ("type", VStr "aoai");
              ("aoai_args", VDict (dict [
                 ("azure_endpoint", endpoint); ("api_version", version);
                 ("api_key", key) ]));
              ("model", deploy) ])), self)) /\
  (selector w = "use_azure_managed_identity" ->
     exists cfg api_type version endpoint deploy provider,
       oai_config self = Some cfg /\
       cloud_fields cfg api_type version endpoint deploy /\
       cfg !! "azure_ad_token_provider" = Some provider /\
       get_config self
         = (Ok (VDict (dict [
              ("type", VStr "aoai");
              ("aoai_args", VDict (dict [
                 ("azure_endpoint", endpoint); ("api_version", version);
                 ("azure_ad_token_provider", provider) ]));
              ("model", deploy) ])), self)).
Proof.
  intros Hnew. split; [ | split ]; intros Hsel.
  - rewrite (new_direct w a Hsel) in Hnew. injection Hnew as <-.
    do 4 eexists. split; [ reflexivity | ].
    do 3 (split; [ reflexivity | ]). reflexivity.
  - rewrite (new_azure_key w a Hsel) in Hnew. injection Hnew as <-.
    do 6 eexists. split; [ reflexivity | ].
    split; [ repeat split; reflexivity | ].
    split; reflexivity.
  - destruct (new_managed_inv w a self Hsel Hnew) as [token [_ ->]].
    do 6 eexists. split; [ reflexivity | ].
    split; [ repeat split; reflexivity | ].
    split; reflexivity.
Qed.

Lemma get_config_shape_witness :
  new w_azure_key all_args = Ok azure_key_instance /\
  exists cfg api_type version endpoint deploy key,
    oai_config azure_key_instance = Some cfg /\
    cloud_fields cfg api_type version endpoint deploy /\
    cfg !! "aoai_key" = Some key /\
    get_config azure_key_instance
      = (Ok (VDict (dict [
           ("type", VStr "aoai");
           ("aoai_args", VDict (dict [
              ("azure_endpoint", endpoint); ("api_version", version);
              ("api_key", key) ]));
           ("model", deploy) ])), azure_key_instance).
Proof.
  split; [ reflexivity | ].
  apply (get_config_shape w_azure_key all_args azure_key_instance eq_refl).
  reflexivity.
Defined.

(** C8: construction is meant never to raise for want of configuration.
    Reading the environment and the overrides indeed raises nothing: in a
    recognized mode, unless the provider call raises, construction returns
    an instance in which every field whose environment variable is unset
    (and whose override, where one is consulted, is absent or empty) holds
    [None]. But in managed-identity mode [__init__] calls the provider it
    has built, so when the login raises, construction raises that
    exception, whatever is or is not configured. *)
Theorem construction_raises_when_login_fails w a :
  recognized (selector w) ->
  (forall e,
     selector w = "use_azure_managed_identity" ->
     call_provider w the_provider = Raise e ->
     new w a = Raise e) /\
  ((selector w = "use_azure_managed_identity" ->
      exists token, call_provider w the_provider = Ok token) ->
   exists self cfg,
     new w a = Ok self /\ oai_config self = Some cfg /\
     (selector w = "use_openai_api_key" ->
        (getenv w "OPENAI_API_KEY" = None -> cfg !! "oai_key" = Some VNone) /\
        (getenv w "OPENAI_API_MODEL" = None -> cfg !! "oai_model" = Some VNone) /\
        (getenv w "OPENAI_API_VERSION" = None ->
           cfg !! "oai_version" = Some VNone)) /\
     (selector w = "use_azure_openai_api_key" ->
        (api_key a = None \/ api_key a = Some "" ->
         getenv w "AZURE_OPENAI_API_KEY" = None ->
           cfg !! "aoai_key" = Some VNone)) /\
     (selector w <> "use_openai_api_key" ->
        (api_version a = None \/ api_version a = Some "" ->
         getenv w "OPENAI_API_VERSION" = None ->
           cfg !! "api_version" = Some VNone) /\
        (endpoint_url a = None \/ endpoint_url a = Some "" ->
         getenv w "AZURE_OPENAI_API_BASE" = None ->
           cfg !! "aoai_endpoint" = Some VNone) /\
        (model_name a = None \/ model_name a = Some "" ->
         getenv w "AZURE_OPENAI_API_DEPLOY" = None ->
           cfg !! "aoai_deploy" = Some VNone))).
Proof.
  intros Hrec. split.
  - intros e Hsel Hcall. exact (new_managed_raise w a e Hsel Hcall).
  - intros Hlogin. destruct Hrec as [Hsel | [Hsel | Hsel]].
    + eexists. eexists. split; [ exact (new_direct w a Hsel) | ].
      split; [ reflexivity | ].
      split; [ intros _ | split; intros H; rewrite Hsel in H;
                          try discriminate H; contradiction ].
      repeat split; intros He; unfold direct_credentials; rewrite He;
        reflexivity.
    + eexists. eexists. split; [ exact (new_azure_key w a Hsel) | ].
      split; [ reflexivity | ].
      split; [ intros H; rewrite Hsel in H; discriminate H | ].
      split; [ intros _ | intros _; repeat split ];
        intros Ho He; rewrite <- (or_absent _ _ Ho He); reflexivity.
    + destruct (Hlogin Hsel) as [token Hcall].
      eexists. eexists.
      split; [ exact (new_managed_ok w a token Hsel Hcall) | ].
      split; [ reflexivity | ].
      split; [ intros H; rewrite Hsel in H; discriminate H | ].
      split; [ intros H; rewrite Hsel in H; discriminate H | ].
      intros _; repeat split; intros Ho He;
        rewrite <- (or_absent _ _ Ho He); reflexivity.
Qed.

Lemma construction_raises_when_login_fails_witness :
  recognized (selector w_managed_nologin) /\
  new w_managed_nologin no_args
    = Raise (ClientAuthenticationError "login cancelled").
Proof.
  assert (Hrec : recognized (selector w_managed_nologin))
    by (right; right; reflexivity).
  split; [ exact Hrec | ].
  apply (proj1 (construction_raises_when_login_fails
                  w_managed_nologin no_args Hrec)); reflexivity.
Defined.

(** C9: no accessor writes to [self]: after [get_config],
    [get_default_autogen_config] or [get_custom_autogen_config] (returning
    or raising) the auth type and the credentials are what they were, and
    calling the accessor again gives the same result. On an instance in a
    recognized mode exactly one of the three mode tests holds, before and
    after any accessor. *)
Theorem accessors_leave_instance_unchanged self :
  (get_config self).2 = self /\
  (get_default_autogen_config self).2 = self /\
  (forall seed temperature max_tokens timeout,
     (get_custom_autogen_config seed temperature max_tokens timeout self).2
     = self) /\
  (get_config (get_config self).2).1 = (get_config self).1 /\
  (get_default_autogen_config (get_default_autogen_config self).2).1
    = (get_default_autogen_config self).1 /\
  (forall seed temperature max_tokens timeout,
     (get_custom_autogen_config seed temperature max_tokens timeout
        (get_custom_autogen_config seed temperature max_tokens timeout self).2).1
     = (get_custom_autogen_config seed temperature max_tokens timeout self).1) /\
  (forall t, oai_auth_type self = Some t -> recognized t ->
     exists direct azure_key managed : bool,
       _use_openai_api_key self = (Ok direct, self) /\
       _use_azure_openai_api_key self = (Ok azure_key, self) /\
       _use_azure_managed_identity self = (Ok managed, self) /\
       ((direct = true /\ azure_key = false /\ managed = false)
        \/ (direct = false /\ azure_key = true /\ managed = false)
        \/ (direct = false /\ azure_key = false /\ managed = true))).
Proof.
  split; [ apply read_only_get_config | ].
  split; [ apply read_only_get_default_autogen_config | ].
  split; [ intros; apply read_only_get_custom_autogen_config | ].
  split; [ apply read_only_again, read_only_get_config | ].
  split; [ apply read_only_again, read_only_get_default_autogen_config | ].
  split; [ intros; apply read_only_again, read_only_get_custom_autogen_config | ].
  intros t Ht Hrec.
  exists (String.eqb t "use_openai_api_key"),
         (String.eqb t "use_azure_openai_api_key"),
         (String.eqb t "use_azure_managed_identity").
  unfold _use_openai_api_key, _use_azure_openai_api_key,
    _use_azure_managed_identity, bind, get_oai_auth_type, ret.
  rewrite Ht. do 3 (split; [ reflexivity | ]).
  destruct Hrec as [-> | [-> | ->]]; [ left | right; left | right; right ];
    repeat split; reflexivity.
Qed.

(** C10: in direct-api-key mode construction succeeds and
    [get_custom_autogen_config] raises KeyError('config_list') whatever its
    arguments, since the default configuration is [{"model": ...}]. *)
Theorem direct_mode_custom_config_raises_KeyError w a :
  selector w = "use_openai_api_key" ->
  exists self,
    new w a = Ok self /\
    (exists model,
       get_default_autogen_config self
         = (Ok (VDict {[ "model" := model ]}), self)) /\
    forall seed temperature max_tokens timeout,
      get_custom_autogen_config seed temperature max_tokens timeout self
      = (Raise (KeyError "config_list"), self).
Proof.
  intros Hsel. eexists. split; [ exact (new_direct w a Hsel) | ].
  split.
  - eexists. reflexivity.
  - intros. reflexivity.
Qed.

Lemma direct_mode_custom_config_raises_KeyError_witness :
  selector w_direct = "use_openai_api_key" /\
  exists self,
    new w_direct no_args = Ok self /\
    (exists model,
       get_default_autogen_config self
         = (Ok (VDict {[ "model" := model ]}), self)) /\
    forall seed temperature max_tokens timeout,
      get_custom_autogen_config seed temperature max_tokens timeout self
      = (Raise (KeyError "config_list"), self).
Proof.
  split; [ reflexivity | ].
  apply (direct_mode_custom_config_raises_KeyError w_direct no_args).
  reflexivity.
Defined.

(** ** Further properties of the accessors *)

Lemma mode_tests_false t :
  ~ recognized t ->
  String.eqb t "use_openai_api_key" = false /\
  String.eqb t "use_azure_openai_api_key" = false /\
  String.eqb t "use_azure_managed_identity" = false.
Proof.
  unfold recognized. intros Hnot.
  repeat split; apply String.eqb_neq; tauto.
Qed.

Lemma get_config_unrecognized self t :
  oai_auth_type self = Some t -> ~ recognized t ->
  get_config self = (Ok (VDict ∅), self).
Proof.
  intros Ht Hnot. destruct (mode_tests_false t Hnot) as [H1 [H2 H3]].
  cbv [get_config bind _use_openai_api_key _use_azure_openai_api_key
       _use_azure_managed_identity get_oai_auth_type ret].
  repeat (cbv beta iota; rewrite ?Ht, ?H1, ?H2, ?H3). reflexivity.
Qed.

Lemma get_default_unrecognized self t :
  oai_auth_type self = Some t -> ~ recognized t ->
  get_default_autogen_config self = (Ok VNone, self).
Proof.
  intros Ht Hnot. destruct (mode_tests_false t Hnot) as [H1 [H2 H3]].
  cbv [get_default_autogen_config bind _use_openai_api_key
       _use_azure_openai_api_key _use_azure_managed_identity
       get_oai_auth_type ret].
  repeat (cbv beta iota; rewrite ?Ht, ?H1, ?H2, ?H3). reflexivity.
Qed.

(** The modes are told apart by string comparison: a selector is one of
    the three modes or none. *)
Lemma selector_cases t :
  t = "use_openai_api_key" \/ t = "use_azure_openai_api_key"
  \/ t = "use_azure_managed_identity" \/ ~ recognized t.
Proof.
  unfold recognized.
  destruct (String.eqb_spec t "use_openai_api_key"); [ tauto | ].
  destruct (String.eqb_spec t "use_azure_openai_api_key"); [ tauto | ].
  destruct (String.eqb_spec t "use_azure_managed_identity"); tauto.
Qed.

(** What [get_default_autogen_config] returns in the cloud modes, entry
    by entry, in terms of the credentials. *)
Lemma get_default_cloud w a self :
  new w a = Ok self ->
  cloud_mode (selector w) ->
  exists cfg entry,
    oai_config self = Some cfg /\
    get_default_autogen_config self
      = (Ok (VDict (dict [ ("config_list", VList [VDict entry]);
                           ("cache_seed", VNone) ])), self) /\
    entry !! "api_type" = cfg !! "api_type" /\
    entry !! "api_version" = cfg !! "api_version" /\
    entry !! "base_url" = cfg !! "aoai_endpoint" /\
    entry !! "model" = cfg !! "aoai_deploy" /\
    entry !! "api_key" = cfg !! "aoai_key" /\
    entry !! "azure_ad_token_provider" = cfg !! "azure_ad_token_provider".
Proof.
  intros Hnew [Hsel | Hsel].
  - rewrite (new_azure_key w a Hsel) in Hnew. injection Hnew as <-.
    pose (cfg := azure_key_credentials w a).
    exists cfg,
      (<["api_key" := default VNone (cfg !! "aoai_key")]>
         (config_entry (default VNone (cfg !! "api_type"))
            (default VNone (cfg !! "api_version"))
            (default VNone (cfg !! "aoai_endpoint"))
            (default VNone (cfg !! "aoai_deploy")))).
    split; [ reflexivity | ]. split; [ reflexivity | ].
    repeat split; reflexivity.
  - destruct (new_managed_inv w a self Hsel Hnew) as [token [_ ->]].
    pose (cfg := managed_credentials w a (VStr token)).
    exists cfg,
      (<["azure_ad_token_provider" :=
           default VNone (cfg !! "azure_ad_token_provider")]>
         (config_entry (default VNone (cfg !! "api_type"))
            (default VNone (cfg !! "api_version"))
            (default VNone (cfg !! "aoai_endpoint"))
            (default VNone (cfg !! "aoai_deploy")))).
    split; [ reflexivity | ]. split; [ reflexivity | ].
    repeat split; reflexivity.
Qed.

(** X1: on an instance constructed in either cloud mode,
    [get_custom_autogen_config] returns a dict of exactly
    [config_list], [seed], [temperature], [max_tokens], [timeout] and
    [cache_seed]: the config list is the one [get_default_autogen_config]
    returns, the four arguments are passed through unchanged, and
    [cache_seed] is [None] whatever the seed. *)
Theorem get_custom_autogen_config_cloud
    w a self seed temperature max_tokens timeout :
  new w a = Ok self ->
  cloud_mode (selector w) ->
  exists d config_list,
    get_default_autogen_config self = (Ok (VDict d), self) /\
    d !! "config_list" = Some config_list /\
    get_custom_autogen_config seed temperature max_tokens timeout self
      = (Ok (VDict (dict [
           ("config_list", config_list);
           ("seed", seed);
           ("temperature", temperature);
           ("max_tokens", max_tokens);
           ("timeout", timeout);
           ("cache_seed", VNone) ])), self).
Proof.
  intros Hnew Hmode.
  destruct (get_default_cloud w a self Hnew Hmode)
    as [cfg [entry [_ [Hdefault _]]]].
  exists (dict [ ("config_list", VList [VDict entry]); ("cache_seed", VNone) ]),
         (VList [VDict entry]).
  split; [ exact Hdefault | ]. split; [ reflexivity | ].
  unfold get_custom_autogen_config, bind. rewrite Hdefault. reflexivity.
Qed.

Lemma get_custom_autogen_config_cloud_witness :
  new w_azure_key all_args = Ok azure_key_instance /\
  cloud_mode (selector w_azure_key) /\
  exists d config_list,
    get_default_autogen_config azure_key_instance
      = (Ok (VDict d), azure_key_instance) /\
    d !! "config_list" = Some config_list /\
    get_custom_autogen_config default_seed default_temperature
      default_max_tokens default_timeout azure_key_instance
      = (Ok (VDict (dict [
           ("config_list", config_list);
           ("seed", VInt 47);
           ("temperature", VFloat (1 # 2));
           ("max_tokens", VInt (-1));
           ("timeout", VInt 6000);
           ("cache_seed", VNone) ])), azure_key_instance).
Proof.
  split; [ reflexivity | ]. split; [ left; reflexivity | ].
  apply (get_custom_autogen_config_cloud w_azure_key all_args
           azure_key_instance default_seed default_temperature
           default_max_tokens default_timeout eq_refl).
  left. reflexivity.
Defined.

Lemma cloud_mode_recognized t : cloud_mode t -> recognized t.
Proof. unfold cloud_mode, recognized. tauto. Qed.

(** X2: the keys [__init__] writes are the keys the accessors read. On
    every constructed instance, in any mode, [get_config] and
    [get_default_autogen_config] return and never raise; and
    [get_custom_autogen_config] returns exactly when the mode is one of the
    two cloud modes. *)
Theorem accessors_on_constructed_instance w a self :
  new w a = Ok self ->
  (exists v, get_config self = (Ok v, self)) /\
  (exists v, get_default_autogen_config self = (Ok v, self)) /\
  forall seed temperature max_tokens timeout,
    (exists v, get_custom_autogen_config seed temperature max_tokens timeout
                 self = (Ok v, self))
    <-> cloud_mode (selector w).
Proof.
  intros Hnew.
  destruct (selector_cases (selector w)) as [Hsel | [Hsel | [Hsel | Hnot]]].
  - rewrite (new_direct w a Hsel) in Hnew. injection Hnew as <-.
    split; [ eexists; reflexivity | ]. split; [ eexists; reflexivity | ].
    intros. split.
    + intros [v Hv]. discriminate Hv.
    + unfold cloud_mode. rewrite Hsel. intros [H | H]; discriminate H.
  - assert (Hmode : cloud_mode (selector w)) by (left; exact Hsel).
    split; [ | split ].
    + rewrite (new_azure_key w a Hsel) in Hnew. injection Hnew as <-.
      eexists. reflexivity.
    + destruct (get_default_cloud w a self Hnew Hmode)
        as [cfg [entry [_ [Hdefault _]]]].
      eexists. exact Hdefault.
    + intros. split; [ intros _; exact Hmode | intros _ ].
      destruct (get_default_cloud w a self Hnew Hmode)
        as [cfg [entry [_ [Hdefault _]]]].
      eexists. unfold get_custom_autogen_config, bind. rewrite Hdefault.
      reflexivity.
  - assert (Hmode : cloud_mode (selector w)) by (right; exact Hsel).
    split; [ | split ].
    + destruct (new_managed_inv w a self Hsel Hnew) as [token [_ ->]].
      eexists. reflexivity.
    + destruct (get_default_cloud w a self Hnew Hmode)
        as [cfg [entry [_ [Hdefault _]]]].
      eexists. exact Hdefault.
    + intros. split; [ intros _; exact Hmode | intros _ ].
      destruct (get_default_cloud w a self Hnew Hmode)
        as [cfg [entry [_ [Hdefault _]]]].
      eexists. unfold get_custom_autogen_config, bind. rewrite Hdefault.
      reflexivity.
  - rewrite (new_unrecognized w a Hnot) in Hnew. injection Hnew as <-.
    pose (self := {| oai_auth_type := Some (selector w); oai_config := None |}).
    assert (Hconfig := get_config_unrecognized self (selector w) eq_refl Hnot).
    assert (Hdefault := get_default_unrecognized self (selector w) eq_refl Hnot).
    split; [ eexists; exact Hconfig | ]. split; [ eexists; exact Hdefault | ].
    intros. split.
    + intros [v Hv]. unfold get_custom_autogen_config, bind in Hv.
      fold self in Hv. rewrite Hdefault in Hv. discriminate Hv.
    + intros Hmode. contradiction (Hnot (cloud_mode_recognized _ Hmode)).
Qed.

Lemma accessors_on_constructed_instance_witness :
  new w_azure_key all_args = Ok azure_key_instance /\
  (exists v, get_config azure_key_instance = (Ok v, azure_key_instance)) /\
  (exists v, get_default_autogen_config azure_key_instance
             = (Ok v, azure_key_instance)) /\
  forall seed temperature max_tokens timeout,
    (exists v, get_custom_autogen_config seed temperature max_tokens timeout
                 azure_key_instance = (Ok v, azure_key_instance))
    <-> cloud_mode (selector w_azure_key).
Proof.
  split; [ reflexivity | ].
  exact (accessors_on_constructed_instance w_azure_key all_args
           azure_key_instance eq_refl).
Defined.

(** ** Further properties of construction *)

Lemma selector_of_nonempty w t :
  getenv w "OPENAI_AUTH_TYPE" = Some t -> t <> "" -> selector w = t.
Proof.
  intros Henv Ht. unfold selector, or_str, or_, truthy. rewrite Henv.
  destruct (String.eqb_spec t ""); [ contradiction | reflexivity ].
Qed.

Lemma new_auth_type w a self :
  new w a = Ok self -> oai_auth_type self = Some (selector w).
Proof.
  intros Hnew.
  destruct (selector_cases (selector w)) as [Hsel | [Hsel | [Hsel | Hnot]]].
  - rewrite (new_direct w a Hsel) in Hnew. injection Hnew as <-.
    rewrite Hsel. reflexivity.
  - rewrite (new_azure_key w a Hsel) in Hnew. injection Hnew as <-.
    rewrite Hsel. reflexivity.
  - destruct (new_managed_inv w a self Hsel Hnew) as [token [_ ->]].
    rewrite Hsel. reflexivity.
  - rewrite (new_unrecognized w a Hnot) in Hnew. injection Hnew as <-.
    reflexivity.
Qed.

(** X3: a non-empty OPENAI_AUTH_TYPE is kept verbatim as the auth type of
    every instance built (the comparison with the three mode names is
    exact, nothing is normalised); when it is none of the three names,
    construction still succeeds, for any arguments and any identity
    library, and leaves the credentials attribute [oai_config] unset. *)
Theorem nonempty_selector_kept_verbatim w a t :
  getenv w "OPENAI_AUTH_TYPE" = Some t ->
  t <> "" ->
  (forall self, new w a = Ok self -> oai_auth_type self = Some t) /\
  (~ recognized t ->
     new w a = Ok {| oai_auth_type := Some t; oai_config := None |}).
Proof.
  intros Henv Ht. pose proof (selector_of_nonempty w t Henv Ht) as Hsel.
  split.
  - intros self Hnew. rewrite <- Hsel. exact (new_auth_type w a self Hnew).
  - intros Hnot. rewrite <- Hsel in Hnot |- *. exact (new_unrecognized w a Hnot).
Qed.

Lemma nonempty_selector_kept_verbatim_witness :
  getenv w_unrecognized "OPENAI_AUTH_TYPE" = Some "use_aws_bedrock" /\
  "use_aws_bedrock" <> "" /\
  (forall self, new w_unrecognized all_args = Ok self ->
                oai_auth_type self = Some "use_aws_bedrock") /\
  (~ recognized "use_aws_bedrock" ->
     new w_unrecognized all_args
       = Ok {| oai_auth_type := Some "use_aws_bedrock"; oai_config := None |}).
Proof.
  split; [ reflexivity | ]. split; [ discriminate | ].
  apply (nonempty_selector_kept_verbatim w_unrecognized all_args
           "use_aws_bedrock"); [ reflexivity | discriminate ].
Defined.

(** X4: construction reads, besides the selector, only the environment
    variables and the overrides of its mode, and calls the identity
    library only in managed-identity mode and only on the provider it
    builds. Two worlds that select the same mode and agree on what that
    mode consults build the same instance (or raise the same exception),
    whatever else differs: other variables, [config_file] in every mode,
    every override in direct-api-key mode, [api_key] and
    AZURE_OPENAI_API_KEY in managed-identity mode. *)
Theorem construction_reads_only_its_mode w w' a a' :
  selector w = selector w' ->
  (forall name, name ∈ consulted_env (selector w) ->
                getenv w name = getenv w' name) ->
  consulted_args_agree (selector w) a a' ->
  (selector w = "use_azure_managed_identity" ->
     call_provider w the_provider = call_provider w' the_provider) ->
  new w a = new w' a'.
Proof.
  intros Hsame Henv Hargs Hcall.
  destruct (selector_cases (selector w)) as [Hsel | [Hsel | [Hsel | Hnot]]].
  - assert (Hsel' : selector w' = "use_openai_api_key") by congruence.
    rewrite (new_direct w a Hsel), (new_direct w' a' Hsel').
    rewrite Hsel in Henv. simpl in Henv.
    unfold direct_credentials.
    rewrite (Henv "OPENAI_API_KEY") by set_solver.
    rewrite (Henv "OPENAI_API_MODEL") by set_solver.
    rewrite (Henv "OPENAI_API_VERSION") by set_solver.
    reflexivity.
  - assert (Hsel' : selector w' = "use_azure_openai_api_key") by congruence.
    rewrite (new_azure_key w a Hsel), (new_azure_key w' a' Hsel').
    rewrite Hsel in Henv, Hargs. simpl in Henv, Hargs.
    destruct Hargs as [Hversion [Hkey [Hendpoint Hmodel]]].
    unfold azure_key_credentials.
    rewrite Hversion, Hkey, Hendpoint, Hmodel.
    rewrite (Henv "OPENAI_API_VERSION") by set_solver.
    rewrite (Henv "AZURE_OPENAI_API_KEY") by set_solver.
    rewrite (Henv "AZURE_OPENAI_API_BASE") by set_solver.
    rewrite (Henv "AZURE_OPENAI_API_DEPLOY") by set_solver.
    reflexivity.
  - assert (Hsel' : selector w' = "use_azure_managed_identity") by congruence.
    specialize (Hcall Hsel).
    assert (Hcfg : forall stored,
              managed_credentials w a stored = managed_credentials w' a' stored).
    { intros stored. rewrite Hsel in Henv, Hargs. simpl in Henv, Hargs.
      destruct Hargs as [Hversion [Hendpoint Hmodel]].
      unfold managed_credentials.
      rewrite Hversion, Hendpoint, Hmodel.
      rewrite (Henv "OPENAI_API_VERSION") by set_solver.
      rewrite (Henv "AZURE_OPENAI_API_BASE") by set_solver.
      rewrite (Henv "AZURE_OPENAI_API_DEPLOY") by set_solver.
      reflexivity. }
    destruct (call_provider w the_provider) as [token | e] eqn:Hw.
    + rewrite (new_managed_ok w a token Hsel Hw).
      rewrite (new_managed_ok w' a' token Hsel' (eq_sym Hcall)).
      rewrite Hcfg. reflexivity.
    + rewrite (new_managed_raise w a e Hsel Hw).
      rewrite (new_managed_raise w' a' e Hsel' (eq_sym Hcall)).
      reflexivity.
  - assert (Hnot' : ~ recognized (selector w')) by (rewrite <- Hsame; exact Hnot).
    rewrite (new_unrecognized w a Hnot), (new_unrecognized w' a' Hnot').
    rewrite Hsame. reflexivity.
Qed.

Lemma construction_reads_only_its_mode_witness :
  selector w_managed = selector w_managed_noisy /\
  getenv w_managed "AZURE_OPENAI_API_KEY"
    <> getenv w_managed_noisy "AZURE_OPENAI_API_KEY" /\
  api_key no_args <> api_key key_and_file_args /\
  new w_managed no_args = new w_managed_noisy key_and_file_args.
Proof.
  split; [ reflexivity | ].
  split; [ discriminate | ].
  split; [ discriminate | ].
  apply (construction_reads_only_its_mode w_managed w_managed_noisy
           no_args key_and_file_args).
  - reflexivity.
  - intros name Hin. apply list_elem_of_In in Hin. simpl in Hin.
    destruct Hin as [<- | [<- | [<- | []]]]; reflexivity.
  - simpl. repeat split; reflexivity.
  - intros _. reflexivity.
Defined.

(** ** The two accessors side by side *)

(** What [get_config] returns in the cloud modes, field by field, in terms
    of the credentials, and which credentials construction has stored. *)
Lemma get_config_cloud w a self :
  new w a = Ok self ->
  cloud_mode (selector w) ->
  exists cfg args model,
    oai_config self = Some cfg /\
    get_config self
      = (Ok (VDict (dict [ ("type", VStr "aoai"); ("aoai_args", VDict args);
                           ("model", model) ])), self) /\
    cfg !! "aoai_deploy" = Some model /\
    args !! "azure_endpoint" = cfg !! "aoai_endpoint" /\
    args !! "api_version" = cfg !! "api_version" /\
    args !! "api_key" = cfg !! "aoai_key" /\
    args !! "azure_ad_token_provider" = cfg !! "azure_ad_token_provider" /\
    cfg !! "api_type" = Some (VStr "azure") /\
    is_Some (cfg !! "aoai_endpoint") /\ is_Some (cfg !! "api_version") /\
    (selector w = "use_azure_openai_api_key" -> is_Some (cfg !! "aoai_key")) /\
    (selector w = "use_azure_managed_identity" ->
       is_Some (cfg !! "azure_ad_token_provider")).
Proof.
  intros Hnew [Hsel | Hsel].
  - rewrite (new_azure_key w a Hsel) in Hnew. injection Hnew as <-.
    pose (cfg := azure_key_credentials w a).
    exists cfg,
      (dict [ ("azure_endpoint", default VNone (cfg !! "aoai_endpoint"));
              ("api_version", default VNone (cfg !! "api_version"));
              ("api_key", default VNone (cfg !! "aoai_key")) ]),
      (default VNone (cfg !! "aoai_deploy")).
    do 8 (split; [ reflexivity | ]).
    split; [ eexists; reflexivity | ]. split; [ eexists; reflexivity | ].
    split; [ intros _; eexists; reflexivity | ].
    intros H. rewrite Hsel in H. discriminate H.
  - destruct (new_managed_inv w a self Hsel Hnew) as [token [_ ->]].
    pose (cfg := managed_credentials w a (VStr token)).
    exists cfg,
      (dict [ ("azure_endpoint", default VNone (cfg !! "aoai_endpoint"));
              ("api_version", default VNone (cfg !! "api_version"));
              ("azure_ad_token_provider",
                default VNone (cfg !! "azure_ad_token_provider")) ]),
      (default VNone (cfg !! "aoai_deploy")).
    do 8 (split; [ reflexivity | ]).
    split; [ eexists; reflexivity | ]. split; [ eexists; reflexivity | ].
    split; [ intros H; rewrite Hsel in H; discriminate H | ].
    intros _. eexists. reflexivity.
Qed.

(** X5: on an instance constructed in a cloud mode, [get_config] and
    [get_default_autogen_config] describe the same deployment with the same
    credential: the one config-list entry has, under [base_url],
    [api_version], [model], [api_key] and [azure_ad_token_provider], what
    [get_config] has under [aoai_args.azure_endpoint],
    [aoai_args.api_version], [model], [aoai_args.api_key] and
    [aoai_args.azure_ad_token_provider]; the endpoint, the version and the
    mode's own credential are present in both, and the entry's [api_type]
    is "azure". *)
Theorem accessors_agree_in_cloud_modes w a self :
  new w a = Ok self ->
  cloud_mode (selector w) ->
  exists args model entry,
    get_config self
      = (Ok (VDict (dict [ ("type", VStr "aoai"); ("aoai_args", VDict args);
                           ("model", model) ])), self) /\
    get_default_autogen_config self
      = (Ok (VDict (dict [ ("config_list", VList [VDict entry]);
                           ("cache_seed", VNone) ])), self) /\
    entry !! "model" = Some model /\
    entry !! "base_url" = args !! "azure_endpoint" /\
    entry !! "api_version" = args !! "api_version" /\
    entry !! "api_key" = args !! "api_key" /\
    entry !! "azure_ad_token_provider" = args !! "azure_ad_token_provider" /\
    entry !! "api_type" = Some (VStr "azure") /\
    is_Some (entry !! "base_url") /\ is_Some (entry !! "api_version") /\
    (selector w = "use_azure_openai_api_key" -> is_Some (entry !! "api_key")) /\
    (selector w = "use_azure_managed_identity" ->
       is_Some (entry !! "azure_ad_token_provider")).
Proof.
  intros Hnew Hmode.
  destruct (get_config_cloud w a self Hnew Hmode)
    as (cfg & args & model & Hcfg & Hconfig & Hmodel & Hendpoint & Hversion
        & Hkey & Hprovider & Htype & Hsome_endpoint & Hsome_version
        & Hsome_key & Hsome_provider).
  destruct (get_default_cloud w a self Hnew Hmode)
    as (cfg' & entry & Hcfg' & Hdefault & Etype & Eversion & Eendpoint
        & Emodel & Ekey & Eprovider).
  assert (cfg' = cfg) by congruence. subst cfg'.
  exists args, model, entry.
  split; [ exact Hconfig | ]. split; [ exact Hdefault | ].
  split; [ congruence | ]. split; [ congruence | ]. split; [ congruence | ].
  split; [ congruence | ]. split; [ congruence | ]. split; [ congruence | ].
  split; [ rewrite Eendpoint; exact Hsome_endpoint | ].
  split; [ rewrite Eversion; exact Hsome_version | ].
  split; intros Hsel.
  - rewrite Ekey. exact (Hsome_key Hsel).
  - rewrite Eprovider. exact (Hsome_provider Hsel).
Qed.

Lemma accessors_agree_in_cloud_modes_witness :
  new w_managed no_args = Ok managed_instance /\
  cloud_mode (selector w_managed) /\
  exists args model entry,
    get_config managed_instance
      = (Ok (VDict (dict [ ("type", VStr "aoai"); ("aoai_args", VDict args);
                           ("model", model) ])), managed_instance) /\
    get_default_autogen_config managed_instance
      = (Ok (VDict (dict [ ("config_list", VList [VDict entry]);
                           ("cache_seed", VNone) ])), managed_instance) /\
    entry !! "model" = Some model /\
    entry !! "base_url" = args !! "azure_endpoint" /\
    entry !! "api_version" = args !! "api_version" /\
    entry !! "api_key" = args !! "api_key" /\
    entry !! "azure_ad_token_provider" = args !! "azure_ad_token_provider" /\
    entry !! "api_type" = Some (VStr "azure") /\
    is_Some (entry !! "base_url") /\ is_Some (entry !! "api_version") /\
    (selector w_managed = "use_azure_openai_api_key" ->
       is_Some (entry !! "api_key")) /\
    (selector w_managed = "use_azure_managed_identity" ->
       is_Some (entry !! "azure_ad_token_provider")).
Proof.
  assert (Hmode : cloud_mode (selector w_managed)) by (right; reflexivity).
  split; [ reflexivity | ]. split; [ exact Hmode | ].
  exact (accessors_agree_in_cloud_modes w_managed no_args managed_instance
           eq_refl Hmode).
Defined.
